(** * Button event handler of the hardware driver

    A shallow embedding of [ButtonEventHandler] (button_event_handler.cpp and
    button_event_handler.hpp) and of the types it takes from
    button_driver_interface.hpp, followed by the properties of its mode
    logic: teaching and replaying exclude each other, rejected events are
    no-ops, and the controller is asked exactly what the handler records.

    The handler talks to three injected [std::function] callbacks and reads
    the system clock.  All of these live outside the handler, so the model
    threads an abstract [World] through every call and records each
    interaction in a trace.  A callback receives the world, never the
    handler: callbacks that call back into the handler they are registered
    on are outside the model, as is concurrent delivery of events. *)

From Stdlib Require Import ZArith String List Bool Lia.
From Stdlib Require Import DecimalString DecimalPos DecimalZ.
Import ListNotations.

Local Open Scope Z_scope.
Local Open Scope string_scope.
Local Open Scope list_scope.

(** ** button_driver_interface.hpp *)

(** [enum class ButtonStatus : uint8_t].  The transport casts a decoded byte
    to this type, so a status is kept as its underlying value: the four
    enumerators are named, every other byte is an unknown status that
    [on_button_event] sends to the [default] branch of its switch. *)
Definition ButtonStatus : Type := Z.

Definition NONE : ButtonStatus := 0.
Definition ENTRY_TEACH : ButtonStatus := 1.
Definition EXIT_TEACH : ButtonStatus := 2.
Definition TEACH_REPEAT : ButtonStatus := 3.

(** [enum class ControllerCommand : uint8_t]; the handler only ever builds
    the three enumerators. *)
Inductive ControllerCommand : Type :=
| START_RECORD
| STOP_RECORD
| START_REPLAY.

(** [std::time_t], as printed by [operator<<]: a signed integer. *)
Definition time_t : Type := Z.

(** [std::to_string(int)] and [ostream << long]: the decimal numeral, with a
    leading minus sign for a negative value. *)
Definition to_string (z : Z) : string := NilZero.string_of_int (Z.to_int z).
Arguments to_string : simpl never.

(** What the handler does to the outside, in the order it does it. *)
Inductive Interaction : Type :=
| ClockRead (now : time_t)
| LogCall (message : string)
| ControllerSwitchCall (command : ControllerCommand) (trajectory_name : string)
    (result : bool)
| ReplayCompleteCall (interface : string).

Definition is_controller_call (i : Interaction) : bool :=
  match i with
  | ControllerSwitchCall _ _ _ => true
  | _ => false
  end.

Definition is_replay_complete_call (i : Interaction) : bool :=
  match i with
  | ReplayCompleteCall _ => true
  | _ => false
  end.

Definition is_clock_read (i : Interaction) : bool :=
  match i with
  | ClockRead _ => true
  | _ => false
  end.

(** The calls made to the controller-switch callback, oldest first. *)
Definition controller_calls (tr : list Interaction) : list Interaction :=
  filter is_controller_call tr.

(** The calls made to the replay-complete callback, oldest first. *)
Definition replay_complete_calls (tr : list Interaction) : list Interaction :=
  filter is_replay_complete_call tr.

(** The readings of the system clock, oldest first. *)
Definition clock_reads (tr : list Interaction) : list Interaction :=
  filter is_clock_read tr.

(** The trajectory id of the latest START_RECORD request that the controller
    accepted: the id teaching was entered with. *)
Definition teaching_entry_id (tr : list Interaction) : option string :=
  fold_left
    (fun acc i =>
       match i with
       | ControllerSwitchCall START_RECORD name true => Some name
       | _ => acc
       end)
    tr None.

Section Handler.

(** Everything outside the handler: the controller, the transport, the log
    sink and the wall clock. *)
Variable World : Type.

(** [std::chrono::system_clock::to_time_t(std::chrono::system_clock::now())]. *)
Variable system_clock : World -> time_t.

(** A [std::function] is either empty or holds a callable; [if (callback_)]
    tests which.  A callable acts on the world and, for the controller
    switch, answers with a [bool]. *)
Definition ControllerSwitchCallback : Type :=
  option (ControllerCommand -> string -> World -> bool * World).

Definition ReplayCompleteCallback : Type :=
  option (string -> World -> World).

Definition LogCallback : Type :=
  option (string -> World -> World).

(** The data members of [class ButtonEventHandler]. *)
Record ButtonEventHandler : Type := mkButtonEventHandler {
  controller_callback_ : ControllerSwitchCallback;
  replay_complete_callback_ : ReplayCompleteCallback;
  log_callback_ : LogCallback;
  is_teaching_ : bool;
  is_replaying_ : bool;
  current_trajectory_name_ : string;
  last_interface_ : string
}.

(** [ButtonEventHandler() = default]: empty callbacks, both flags [false]
    by their member initialisers, empty strings. *)
Definition default_handler : ButtonEventHandler :=
  {| controller_callback_ := None;
     replay_complete_callback_ := None;
     log_callback_ := None;
     is_teaching_ := false;
     is_replaying_ := false;
     current_trajectory_name_ := "";
     last_interface_ := "" |}.

(** Assignments to single members. *)
Definition assign_controller_callback (c : ControllerSwitchCallback)
  (h : ButtonEventHandler) : ButtonEventHandler :=
  {| controller_callback_ := c;
     replay_complete_callback_ := replay_complete_callback_ h;
     log_callback_ := log_callback_ h;
     is_teaching_ := is_teaching_ h;
     is_replaying_ := is_replaying_ h;
     current_trajectory_name_ := current_trajectory_name_ h;
     last_interface_ := last_interface_ h |}.

Definition assign_replay_complete_callback (c : ReplayCompleteCallback)
  (h : ButtonEventHandler) : ButtonEventHandler :=
  {| controller_callback_ := controller_callback_ h;
     replay_complete_callback_ := c;
     log_callback_ := log_callback_ h;
     is_teaching_ := is_teaching_ h;
     is_replaying_ := is_replaying_ h;
     current_trajectory_name_ := current_trajectory_name_ h;
     last_interface_ := last_interface_ h |}.

Definition assign_log_callback (c : LogCallback)
  (h : ButtonEventHandler) : ButtonEventHandler :=
  {| controller_callback_ := controller_callback_ h;
     replay_complete_callback_ := replay_complete_callback_ h;
     log_callback_ := c;
     is_teaching_ := is_teaching_ h;
     is_replaying_ := is_replaying_ h;
     current_trajectory_name_ := current_trajectory_name_ h;
     last_interface_ := last_interface_ h |}.

Definition assign_is_teaching (b : bool)
  (h : ButtonEventHandler) : ButtonEventHandler :=
  {| controller_callback_ := controller_callback_ h;
     replay_complete_callback_ := replay_complete_callback_ h;
     log_callback_ := log_callback_ h;
     is_teaching_ := b;
     is_replaying_ := is_replaying_ h;
     current_trajectory_name_ := current_trajectory_name_ h;
     last_interface_ := last_interface_ h |}.

Definition assign_is_replaying (b : bool)
  (h : ButtonEventHandler) : ButtonEventHandler :=
  {| controller_callback_ := controller_callback_ h;
     replay_complete_callback_ := replay_complete_callback_ h;
     log_callback_ := log_callback_ h;
     is_teaching_ := is_teaching_ h;
     is_replaying_ := b;
     current_trajectory_name_ := current_trajectory_name_ h;
     last_interface_ := last_interface_ h |}.

Definition assign_current_trajectory_name (s : string)
  (h : ButtonEventHandler) : ButtonEventHandler :=
  {| controller_callback_ := controller_callback_ h;
     replay_complete_callback_ := replay_complete_callback_ h;
     log_callback_ := log_callback_ h;
     is_teaching_ := is_teaching_ h;
     is_replaying_ := is_replaying_ h;
     current_trajectory_name_ := s;
     last_interface_ := last_interface_ h |}.

Definition assign_last_interface (s : string)
  (h : ButtonEventHandler) : ButtonEventHandler :=
  {| controller_callback_ := controller_callback_ h;
     replay_complete_callback_ := replay_complete_callback_ h;
     log_callback_ := log_callback_ h;
     is_teaching_ := is_teaching_ h;
     is_replaying_ := is_replaying_ h;
     current_trajectory_name_ := current_trajectory_name_ h;
     last_interface_ := s |}.

(** The session state of the spec's data model without the informational
    [last_interface_]: the two mode flags and the trajectory id. *)
Definition session_state (h : ButtonEventHandler) : bool * bool * string :=
  (is_teaching_ h, is_replaying_ h, current_trajectory_name_ h).

(** ** Member functions as state transformers

    A member function runs on the handler and the world and leaves a value,
    the new handler, the new world and the interactions it made. *)
Record Outcome (A : Type) : Type := mkOutcome {
  value : A;
  handler : ButtonEventHandler;
  world : World;
  trace : list Interaction
}.
Arguments mkOutcome {A} _ _ _ _.
Arguments value {A} _.
Arguments handler {A} _.
Arguments world {A} _.
Arguments trace {A} _.

Definition M (A : Type) : Type := ButtonEventHandler -> World -> Outcome A.

Definition ret {A : Type} (a : A) : M A :=
  fun h w => mkOutcome a h w [].

Definition bind {A B : Type} (m : M A) (k : A -> M B) : M B :=
  fun h w =>
    match m h w with
    | mkOutcome a h1 w1 t1 =>
        match k a h1 w1 with
        | mkOutcome b h2 w2 t2 => mkOutcome b h2 w2 (t1 ++ t2)
        end
    end.

Notation "x <- m ;; k" := (bind m (fun x => k))
  (at level 61, m at next level, right associativity).
Notation "m ;; k" := (bind m (fun _ => k))
  (at level 61, right associativity).

(** Reading a member, and assigning to one. *)
Definition member {A : Type} (f : ButtonEventHandler -> A) : M A :=
  fun h w => mkOutcome (f h) h w [].

Definition assign (f : ButtonEventHandler -> ButtonEventHandler) : M unit :=
  fun h w => mkOutcome tt (f h) w [].

(** Calling a non-empty callback. *)
Definition invoke_log (f : string -> World -> World) (message : string)
  : M unit :=
  fun h w => mkOutcome tt h (f message w) [LogCall message].

Definition invoke_controller
  (f : ControllerCommand -> string -> World -> bool * World)
  (command : ControllerCommand) (trajectory_name : string) : M bool :=
  fun h w =>
    let a := f command trajectory_name w in
    mkOutcome (fst a) h (snd a)
      [ControllerSwitchCall command trajectory_name (fst a)].

Definition invoke_replay_complete (f : string -> World -> World)
  (interface : string) : M unit :=
  fun h w => mkOutcome tt h (f interface w) [ReplayCompleteCall interface].

Definition system_clock_now : M time_t :=
  fun h w => mkOutcome (system_clock w) h w [ClockRead (system_clock w)].

(** ** button_event_handler.cpp *)

Definition set_controller_switch_callback (callback : ControllerSwitchCallback)
  : M unit :=
  assign (assign_controller_callback callback).

Definition set_replay_complete_callback (callback : ReplayCompleteCallback)
  : M unit :=
  assign (assign_replay_complete_callback callback).

Definition set_log_callback (callback : LogCallback) : M unit :=
  assign (assign_log_callback callback).

Definition log (message : string) : M unit :=
  cb <- member log_callback_ ;;
  match cb with
  | Some f => invoke_log f ("[ButtonEventHandler] " ++ message)
  | None => ret tt
  end.

Definition trajectory_name_at (now : time_t) : string :=
  "button_traj_" ++ to_string now.
Arguments trajectory_name_at : simpl never.

Definition generate_trajectory_name : M string :=
  now <- system_clock_now ;;
  ret (trajectory_name_at now).

Definition handle_entry_teach (interface : string) : M unit :=
  teaching <- member is_teaching_ ;;
  if teaching : bool then
    log "已在示教模式中，忽略重复进入请求"
  else
    replaying <- member is_replaying_ ;;
    if replaying : bool then
      log "正在复现中，无法进入示教模式"
    else
      log ("进入示教模式 (interface=" ++ interface ++ ")") ;;
      fresh <- generate_trajectory_name ;;
      assign (assign_current_trajectory_name fresh) ;;
      cb <- member controller_callback_ ;;
      match cb with
      | Some f =>
          name <- member current_trajectory_name_ ;;
          ok <- invoke_controller f START_RECORD name ;;
          if ok : bool then
            assign (assign_is_teaching true) ;;
            name' <- member current_trajectory_name_ ;;
            log ("示教开始，轨迹名称: " ++ name')
          else
            log "启动示教失败"
      | None => log "未设置控制器切换回调"
      end.

Definition handle_exit_teach (interface : string) : M unit :=
  teaching <- member is_teaching_ ;;
  if negb teaching then
    log "未在示教模式中，忽略退出请求"
  else
    log ("退出示教模式 (interface=" ++ interface ++ ")") ;;
    cb <- member controller_callback_ ;;
    match cb with
    | Some f =>
        name <- member current_trajectory_name_ ;;
        ok <- invoke_controller f STOP_RECORD name ;;
        if ok : bool then
          assign (assign_is_teaching false) ;;
          name' <- member current_trajectory_name_ ;;
          log ("示教结束，轨迹已保存: " ++ name')
        else
          log "停止示教失败"
    | None => log "未设置控制器切换回调"
    end.

Definition handle_teach_repeat (interface : string) : M unit :=
  teaching <- member is_teaching_ ;;
  if teaching : bool then
    log "正在示教中，无法开始复现"
  else
    replaying <- member is_replaying_ ;;
    if replaying : bool then
      log "已在复现中，忽略重复请求"
    else
      shown <- member current_trajectory_name_ ;;
      log ("开始轨迹复现 (interface=" ++ interface ++ ", trajectory="
             ++ shown ++ ")") ;;
      cb <- member controller_callback_ ;;
      match cb with
      | Some f =>
          name <- member current_trajectory_name_ ;;
          ok <- invoke_controller f START_REPLAY name ;;
          if ok : bool then
            assign (assign_is_replaying true) ;;
            name' <- member current_trajectory_name_ ;;
            log ("复现开始: " ++ name')
          else
            log "启动复现失败"
      | None => log "未设置控制器切换回调"
      end.

Definition on_button_event (interface : string) (status : ButtonStatus)
  : M unit :=
  log ("收到按键事件: interface=" ++ interface ++ ", status="
         ++ to_string status) ;;
  assign (assign_last_interface interface) ;;
  if Z.eqb status ENTRY_TEACH then handle_entry_teach interface
  else if Z.eqb status EXIT_TEACH then handle_exit_teach interface
  else if Z.eqb status TEACH_REPEAT then handle_teach_repeat interface
  else log ("未知按键状态: " ++ to_string status).

Definition notify_replay_complete (interface : string) : M unit :=
  replaying <- member is_replaying_ ;;
  if replaying : bool then
    assign (assign_is_replaying false) ;;
    log ("复现完成: interface=" ++ interface) ;;
    cb <- member replay_complete_callback_ ;;
    match cb with
    | Some f => invoke_replay_complete f interface
    | None => ret tt
    end
  else ret tt.

(** ** Sequences of calls

    What the owner of a handler can do with it between construction and
    destruction, one call after the other; [Elsewhere] is whatever happens
    in the world between two calls (time passes, the controller works). *)
Inductive Call : Type :=
| Set_controller_switch_callback (callback : ControllerSwitchCallback)
| Set_replay_complete_callback (callback : ReplayCompleteCallback)
| Set_log_callback (callback : LogCallback)
| On_button_event (interface : string) (status : ButtonStatus)
| Notify_replay_complete (interface : string)
| Elsewhere (f : World -> World).

Definition elsewhere (f : World -> World) : M unit :=
  fun h w => mkOutcome tt h (f w) [].

Definition call (c : Call) : M unit :=
  match c with
  | Set_controller_switch_callback callback =>
      set_controller_switch_callback callback
  | Set_replay_complete_callback callback =>
      set_replay_complete_callback callback
  | Set_log_callback callback => set_log_callback callback
  | On_button_event interface status => on_button_event interface status
  | Notify_replay_complete interface => notify_replay_complete interface
  | Elsewhere f => elsewhere f
  end.

Fixpoint calls (cs : list Call) : M unit :=
  match cs with
  | [] => ret tt
  | c :: rest => call c ;; calls rest
  end.

(** While teaching, the trajectory id the handler holds is the id of the
    START_RECORD request that started the teaching. *)
Definition holds_entry_id (h : ButtonEventHandler) (tr : list Interaction)
  : Prop :=
  is_teaching_ h = true ->
  teaching_entry_id tr = Some (current_trajectory_name_ h).

End Handler.

Arguments mkButtonEventHandler {World} _ _ _ _ _ _ _.
Arguments controller_callback_ {World} _.
Arguments replay_complete_callback_ {World} _.
Arguments log_callback_ {World} _.
Arguments is_teaching_ {World} _.
Arguments is_replaying_ {World} _.
Arguments current_trajectory_name_ {World} _.
Arguments last_interface_ {World} _.
Arguments default_handler {World}.
Arguments assign_controller_callback {World} _ _.
Arguments assign_replay_complete_callback {World} _ _.
Arguments assign_log_callback {World} _ _.
Arguments assign_is_teaching {World} _ _.
Arguments assign_is_replaying {World} _ _.
Arguments assign_current_trajectory_name {World} _ _.
Arguments assign_last_interface {World} _ _.
Arguments session_state {World} _.
Arguments mkOutcome {World A} _ _ _ _.
Arguments value {World A} _.
Arguments handler {World A} _.
Arguments world {World A} _.
Arguments trace {World A} _.
Arguments ret {World A} _ _ _.
Arguments bind {World A B} _ _ _ _.
Arguments member {World A} _ _ _.
Arguments assign {World} _ _ _.
Arguments invoke_log {World} _ _ _ _.
Arguments invoke_controller {World} _ _ _ _ _.
Arguments invoke_replay_complete {World} _ _ _ _.
Arguments system_clock_now {World} _ _ _.
Arguments set_controller_switch_callback {World} _ _ _.
Arguments set_replay_complete_callback {World} _ _ _.
Arguments set_log_callback {World} _ _ _.
Arguments log {World} _ _ _.
Arguments generate_trajectory_name {World} _ _ _.
Arguments handle_entry_teach {World} _ _ _ _.
Arguments handle_exit_teach {World} _ _ _.
Arguments handle_teach_repeat {World} _ _ _.
Arguments on_button_event {World} _ _ _ _ _.
Arguments notify_replay_complete {World} _ _ _.
Arguments Set_controller_switch_callback {World} _.
Arguments Set_replay_complete_callback {World} _.
Arguments Set_log_callback {World} _.
Arguments On_button_event {World} _ _.
Arguments Notify_replay_complete {World} _.
Arguments Elsewhere {World} _.
Arguments elsewhere {World} _ _ _.
Arguments call {World} _ _ _ _.
Arguments calls {World} _ _ _ _.
Arguments holds_entry_id {World} _ _.

(** ** More readings of a trace *)

Definition is_log_call (i : Interaction) : bool :=
  match i with
  | LogCall _ => true
  | _ => false
  end.

(** The trace without its log lines: what the controller, the transport
    and the clock saw. *)
Definition beyond_logging (tr : list Interaction) : list Interaction :=
  filter (fun i => negb (is_log_call i)) tr.

(** Every log line carries the tag that [log] puts in front of it. *)
Definition is_tagged (i : Interaction) : bool :=
  match i with
  | LogCall message => String.prefix "[ButtonEventHandler] " message
  | _ => true
  end.

(** The trajectory id built from the latest reading of the clock, the empty
    string while the clock has not been read. *)
Definition last_generated_id (tr : list Interaction) : string :=
  fold_left
    (fun acc i =>
       match i with
       | ClockRead now => trajectory_name_at now
       | _ => acc
       end)
    tr "".

(** The trajectory id of the latest START_REPLAY request that the
    controller accepted. *)
Definition replay_entry_id (tr : list Interaction) : option string :=
  fold_left
    (fun acc i =>
       match i with
       | ControllerSwitchCall START_REPLAY name true => Some name
       | _ => acc
       end)
    tr None.

(** The button status that makes [on_button_event] send a command. *)
Definition status_requesting (command : ControllerCommand) : ButtonStatus :=
  match command with
  | START_RECORD => ENTRY_TEACH
  | STOP_RECORD => EXIT_TEACH
  | START_REPLAY => TEACH_REPEAT
  end.

(** Until the handler has read the clock it is not teaching and holds the
    empty trajectory id. *)
Definition nothing_generated {World : Type} (h : ButtonEventHandler World)
  (tr : list Interaction) : Prop :=
  clock_reads tr = [] ->
  is_teaching_ h = false /\ current_trajectory_name_ h = "".

(** ** The world a request is made in

    [on_button_event] writes two log lines before it calls the controller:
    the line for the event and the line of the handler it dispatches to.
    The controller is called in the world these two lines leave. *)
Definition logged {World : Type} (h : ButtonEventHandler World)
  (message : string) (w : World) : World :=
  world (log message h w).

Definition event_message (interface : string) (status : ButtonStatus)
  : string :=
  "收到按键事件: interface=" ++ interface ++ ", status=" ++ to_string status.

Definition entry_teach_message (interface : string) : string :=
  "进入示教模式 (interface=" ++ interface ++ ")".

Definition exit_teach_message (interface : string) : string :=
  "退出示教模式 (interface=" ++ interface ++ ")".

Definition teach_repeat_message (interface name : string) : string :=
  "开始轨迹复现 (interface=" ++ interface ++ ", trajectory=" ++ name ++ ")".

Definition start_record_world {World : Type} (h : ButtonEventHandler World)
  (interface : string) (w : World) : World :=
  logged h (entry_teach_message interface)
    (logged h (event_message interface ENTRY_TEACH) w).

Definition stop_record_world {World : Type} (h : ButtonEventHandler World)
  (interface : string) (w : World) : World :=
  logged h (exit_teach_message interface)
    (logged h (event_message interface EXIT_TEACH) w).

Definition start_replay_world {World : Type} (h : ButtonEventHandler World)
  (interface : string) (w : World) : World :=
  logged h
    (teach_repeat_message interface (current_trajectory_name_ h))
    (logged h (event_message interface TEACH_REPEAT) w).

(** ** A small world for concrete runs

    The world is the reading of the wall clock, a controller either accepts
    or refuses every request, and the transport's completion signal leaves
    the clock alone. *)
Definition accept (_ : ControllerCommand) (_ : string) (w : Z) : bool * Z :=
  (true, w).

Definition refuse (_ : ControllerCommand) (_ : string) (w : Z) : bool * Z :=
  (false, w).

Definition send_replay_complete (_ : string) (w : Z) : Z := w.

Definition wall_clock (w : Z) : time_t := w.

Definition write_log (_ : string) (w : Z) : Z := w.

(** A handler whose controller accepts every request, and the way into
    teaching and into replay from there. *)
Definition with_controller : list (Call Z) :=
  [Set_controller_switch_callback (Some accept)].

Definition enter_teaching : list (Call Z) :=
  with_controller ++ [On_button_event "can0" ENTRY_TEACH].

Definition start_replay : list (Call Z) :=
  with_controller ++ [On_button_event "can0" TEACH_REPEAT].

(** The same with a log sink registered first. *)
Definition with_controller_and_log : list (Call Z) :=
  Set_log_callback (Some write_log) :: with_controller.

Definition enter_teaching_logged : list (Call Z) :=
  with_controller_and_log ++ [On_button_event "can0" ENTRY_TEACH].

(** A first START_RECORD that the controller refuses at time 7, and a
    controller that accepts every request from then on. *)
Definition refused_once : list (Call Z) :=
  [Set_controller_switch_callback (Some refuse);
   On_button_event "can0" ENTRY_TEACH;
   Set_controller_switch_callback (Some accept)].

Definition start_replay_with_signal : list (Call Z) :=
  Set_replay_complete_callback (Some send_replay_complete) :: start_replay.

(** One trajectory recorded at time 7; two seconds later the controller
    refuses every request. *)
Definition recorded_then_refusing : list (Call Z) :=
  enter_teaching
    ++ [On_button_event "can0" EXIT_TEACH;
        Set_controller_switch_callback (Some refuse);
        Elsewhere (Z.add 2)].

Definition after (cs : list (Call Z)) (w : Z) : Outcome Z unit :=
  calls wall_clock cs default_handler w.

(** ** Proof support *)

Ltac unfold_members :=
  unfold start_record_world, stop_record_world, start_replay_world, logged,
    event_message, entry_teach_message, exit_teach_message,
    teach_repeat_message in *;
  unfold call, on_button_event, notify_replay_complete, handle_entry_teach,
    handle_exit_teach, handle_teach_repeat, generate_trajectory_name,
    system_clock_now, log, set_controller_switch_callback,
    set_replay_complete_callback, set_log_callback, elsewhere, invoke_log,
    invoke_controller, invoke_replay_complete, member, assign, bind, ret in *.

(** The three tests of the switch in [on_button_event]. *)
Ltac switch_on status :=
  unfold on_button_event;
  destruct (Z.eqb status ENTRY_TEACH);
  [|destruct (Z.eqb status EXIT_TEACH);
    [|destruct (Z.eqb status TEACH_REPEAT)]].

(** The answer of the controller-switch callback, once a member function
    has been run up to it. *)
Ltac on_answer :=
  match goal with
  | |- context [fst (?f ?command ?name ?w)] =>
      destruct (f command name w) as [[] ?]; simpl
  end.

Section Properties.

Variable World : Type.
Variable system_clock : World -> time_t.

Lemma calls_cons (c : Call World) (rest : list (Call World))
  (h : ButtonEventHandler World) (w : World) :
  calls system_clock (c :: rest) h w =
  let r := call system_clock c h w in
  let r' := calls system_clock rest (handler r) (world r) in
  mkOutcome tt (handler r') (world r') (trace r ++ trace r').
Proof.
  simpl. unfold bind.
  destruct (call system_clock c h w) as [a h1 w1 t1]. simpl.
  destruct (calls system_clock rest h1 w1) as [[] h2 w2 t2]. reflexivity.
Qed.

(** A property of the handler and of the trace so far that every single call
    keeps is kept by every sequence of calls. *)
Lemma calls_invariant
  (P : ButtonEventHandler World -> list Interaction -> Prop) :
  (forall c h w tr,
      P h tr ->
      P (handler (call system_clock c h w))
        (tr ++ trace (call system_clock c h w))) ->
  forall cs h w tr,
    P h tr ->
    P (handler (calls system_clock cs h w))
      (tr ++ trace (calls system_clock cs h w)).
Proof.
  intros Hstep cs. induction cs as [|c rest IH]; intros h w tr HP.
  - simpl. rewrite app_nil_r. exact HP.
  - rewrite calls_cons. simpl. rewrite app_assoc.
    apply IH. apply Hstep. exact HP.
Qed.

Lemma teaching_entry_id_app (tr tr' : list Interaction) :
  teaching_entry_id (tr ++ tr') =
  match teaching_entry_id tr' with
  | Some name => Some name
  | None => teaching_entry_id tr
  end.
Proof.
  unfold teaching_entry_id. rewrite fold_left_app.
  generalize (fold_left
    (fun acc i =>
       match i with
       | ControllerSwitchCall START_RECORD name true => Some name
       | _ => acc
       end) tr None) as start.
  induction tr' as [|i tr' IH] using rev_ind; intro start.
  - reflexivity.
  - rewrite !fold_left_app. simpl.
    destruct i as [| |[] name []|]; try apply IH; reflexivity.
Qed.

Lemma call_keeps_exclusion (c : Call World) (h : ButtonEventHandler World)
  (w : World) :
  is_teaching_ h && is_replaying_ h = false ->
  is_teaching_ (handler (call system_clock c h w))
  && is_replaying_ (handler (call system_clock c h w)) = false.
Proof.
  destruct h as [cc rc lc t r n li]. simpl. intro H.
  destruct c as [cb|cb|cb|interface status|interface|f]; try exact H.
  - unfold call. switch_on status;
      destruct cc, lc, t, r; try discriminate H;
      unfold_members; simpl; try reflexivity; on_answer; reflexivity.
  - destruct rc, lc, t, r; try discriminate H; reflexivity.
Qed.

Lemma call_keeps_entry_id (c : Call World) (h : ButtonEventHandler World)
  (w : World) (tr : list Interaction) :
  holds_entry_id h tr ->
  holds_entry_id (handler (call system_clock c h w))
    (tr ++ trace (call system_clock c h w)).
Proof.
  unfold holds_entry_id. rewrite teaching_entry_id_app.
  destruct h as [cc rc lc t r n li]. simpl. intro H.
  destruct c as [cb|cb|cb|interface status|interface|f]; try exact H.
  - unfold call. switch_on status;
      destruct cc, lc, t, r;
      unfold_members; simpl; try exact H; try discriminate;
      on_answer; try exact H; try discriminate; reflexivity.
  - destruct rc, lc, t, r; unfold_members; simpl; exact H.
Qed.

Lemma call_keeps_nothing_generated (c : Call World)
  (h : ButtonEventHandler World) (w : World) (tr : list Interaction) :
  nothing_generated h tr ->
  nothing_generated (handler (call system_clock c h w))
    (tr ++ trace (call system_clock c h w)).
Proof.
  unfold nothing_generated, clock_reads. rewrite filter_app.
  intros H Hnone. apply app_eq_nil in Hnone. destruct Hnone as [Htr Hcall].
  destruct (H Htr) as [Ht Hn]. clear H Htr. revert Hcall.
  destruct h as [cc rc lc t r n li]. simpl in Ht, Hn. subst t n.
  destruct c as [cb|cb|cb|interface status|interface|f];
    try (intros _; split; reflexivity).
  - unfold call. switch_on status;
      destruct cc, lc, r; unfold_members; simpl; try on_answer;
      intro Hcall; try discriminate Hcall; split; reflexivity.
  - destruct rc, lc, r; intros _; split; reflexivity.
Qed.

(** ** Properties *)

(** C1: from the freshly constructed handler, after every sequence of
    callback registrations, button events and replay-complete notifications,
    whatever the controller-switch callback answers and whatever happens in
    the world in between, [is_teaching_] and [is_replaying_] are not both
    true. *)
Theorem teaching_and_replaying_exclude_each_other (cs : list (Call World))
  (w : World) :
  let h := handler (calls system_clock cs default_handler w) in
  is_teaching_ h && is_replaying_ h = false.
Proof.
  simpl.
  apply (calls_invariant
           (fun h _ => is_teaching_ h && is_replaying_ h = false))
    with (tr := []).
  - intros c h0 w0 _. apply call_keeps_exclusion.
  - reflexivity.
Qed.

(** C10: every call of [on_button_event] leaves the interface it was given
    in [last_interface_], whatever the status is (an enumerator, NONE or any
    other byte) and whether the event is acted on, rejected or ignored. *)
Theorem on_button_event_records_the_interface (h : ButtonEventHandler World)
  (w : World) (interface : string) (status : ButtonStatus) :
  last_interface_ (handler (on_button_event system_clock interface status h w))
  = interface.
Proof.
  destruct h as [cc rc lc t r n li].
  switch_on status; destruct cc, lc, t, r; unfold_members; simpl;
    try reflexivity; on_answer; reflexivity.
Qed.

(** C4: while [is_replaying_] is true, an ENTRY_TEACH event changes neither
    flag nor the trajectory id (every member but [last_interface_], which
    takes the event's interface, keeps its value) and the controller-switch
    callback is not called. *)
Theorem entry_teach_while_replaying_changes_nothing
  (h : ButtonEventHandler World) (w : World) (interface : string) :
  is_replaying_ h = true ->
  let r := on_button_event system_clock interface ENTRY_TEACH h w in
  session_state (handler r) = session_state h /\
  handler r = assign_last_interface interface h /\
  controller_calls (trace r) = [].
Proof.
  destruct h as [cc rc lc t r n li]. simpl. intro Hr. subst r.
  destruct cc, lc, t; unfold_members; simpl; repeat split; reflexivity.
Qed.

(** C5: while [is_teaching_] is true, a TEACH_REPEAT event changes neither
    flag nor the trajectory id (every member but [last_interface_], which
    takes the event's interface, keeps its value) and the controller-switch
    callback is not called. *)
Theorem teach_repeat_while_teaching_changes_nothing
  (h : ButtonEventHandler World) (w : World) (interface : string) :
  is_teaching_ h = true ->
  let r := on_button_event system_clock interface TEACH_REPEAT h w in
  session_state (handler r) = session_state h /\
  handler r = assign_last_interface interface h /\
  controller_calls (trace r) = [].
Proof.
  destruct h as [cc rc lc t r n li]. simpl. intro Ht. subst t.
  destruct cc, lc, r; unfold_members; simpl; repeat split; reflexivity.
Qed.

(** C7: while [is_replaying_] is false, [notify_replay_complete] returns
    with the handler and the world as they were and with no interaction at
    all (no replay-complete call, no controller call, not even a log line),
    and so does every run of such notifications. *)
Theorem spurious_replay_complete_is_a_no_op (h : ButtonEventHandler World)
  (w : World) (interface : string) (interfaces : list string) :
  is_replaying_ h = false ->
  notify_replay_complete interface h w = mkOutcome tt h w [] /\
  calls system_clock (map Notify_replay_complete interfaces) h w
  = mkOutcome tt h w [].
Proof.
  intro Hr.
  assert (Hone : forall i, notify_replay_complete i h w = mkOutcome tt h w []).
  { intro i. unfold notify_replay_complete, bind, member. rewrite Hr.
    reflexivity. }
  split; [apply Hone|].
  induction interfaces as [|i rest IH].
  - reflexivity.
  - simpl map. rewrite calls_cons. simpl. rewrite Hone. simpl.
    rewrite IH. reflexivity.
Qed.


(** C2, amended: when the controller-switch callback answers a request of
    [on_button_event] with false, both flags are what they were before the
    event.  The trajectory id is what it was for a refused STOP_RECORD or
    START_REPLAY; for a refused START_RECORD the handler has already stored
    the id it generated for the request, and keeps it. *)
Theorem refused_request_keeps_the_mode (h : ButtonEventHandler World)
  (w : World) (interface : string) (status : ButtonStatus)
  (command : ControllerCommand) (name : string) :
  let r := on_button_event system_clock interface status h w in
  In (ControllerSwitchCall command name false) (trace r) ->
  is_teaching_ (handler r) = is_teaching_ h /\
  is_replaying_ (handler r) = is_replaying_ h /\
  match command with
  | START_RECORD => current_trajectory_name_ (handler r) = name
  | _ => current_trajectory_name_ (handler r) = current_trajectory_name_ h
  end.
Proof.
  destruct h as [cc rc lc t r n li]. simpl.
  switch_on status; destruct cc, lc, t, r; unfold_members; simpl;
    try on_answer; intro Hin;
    repeat (destruct Hin as [Hin|Hin]; try discriminate Hin);
    try contradiction;
    injection Hin as <- <-; repeat split; reflexivity.
Qed.

(** C3, amended: while [is_replaying_] is true, [notify_replay_complete]
    clears the flag and touches no other member; it calls the
    replay-complete callback exactly once, with the interface it was given,
    when one is registered, and not at all when none is; it never calls the
    controller; and a second notification right after it does nothing. *)
Theorem replay_complete_clears_the_flag_once (h : ButtonEventHandler World)
  (w : World) (interface : string) :
  is_replaying_ h = true ->
  let r := notify_replay_complete interface h w in
  handler r = assign_is_replaying false h /\
  replay_complete_calls (trace r) =
    match replay_complete_callback_ h with
    | Some _ => [ReplayCompleteCall interface]
    | None => []
    end /\
  controller_calls (trace r) = [] /\
  notify_replay_complete interface (handler r) (world r) =
    mkOutcome tt (handler r) (world r) [].
Proof.
  destruct h as [cc rc lc t r n li]. simpl. intro Hr. subst r.
  destruct rc, lc; unfold_members; simpl; repeat split; reflexivity.
Qed.

(** C8: on a handler that any sequence of calls has brought to teaching,
    with a controller-switch callback registered that answers true to
    STOP_RECORD with the id the handler holds (asked in the world the event's
    two log lines leave), an EXIT_TEACH event makes exactly one request,
    STOP_RECORD, with the trajectory id of the accepted START_RECORD request
    that started the teaching, and the handler is no longer teaching
    afterwards. *)
Theorem exit_teach_stops_the_recording_it_started (cs : list (Call World))
  (w0 : World) (interface : string)
  (f : ControllerCommand -> string -> World -> bool * World) :
  let before := calls system_clock cs default_handler w0 in
  is_teaching_ (handler before) = true ->
  controller_callback_ (handler before) = Some f ->
  let name := current_trajectory_name_ (handler before) in
  let asked := stop_record_world (handler before) interface (world before) in
  fst (f STOP_RECORD name asked) = true ->
  let r :=
    on_button_event system_clock interface EXIT_TEACH
      (handler before) (world before) in
  teaching_entry_id (trace before) = Some name /\
  controller_calls (trace r) = [ControllerSwitchCall STOP_RECORD name true] /\
  is_teaching_ (handler r) = false.
Proof.
  simpl. intros Ht Hcc.
  pose proof (calls_invariant holds_entry_id call_keeps_entry_id
                cs default_handler w0 []) as Hentry.
  simpl in Hentry.
  destruct (calls system_clock cs default_handler w0) as [[] h w tr].
  simpl in *. intro Haccepted. split.
  - apply Hentry; [intro Hdefault; discriminate Hdefault|exact Ht].
  - clear Hentry. destruct h as [cc rc lc t r n li]. simpl in *.
    subst t cc. revert Haccepted.
    destruct lc; unfold_members; simpl; intro Hanswer; rewrite Hanswer;
      split; reflexivity.
Qed.

(** C9, amended: on a handler that since its construction has not generated
    a trajectory id (it has not read the clock: no ENTRY_TEACH reached it
    while idle, accepted or refused) and is not replaying, a TEACH_REPEAT
    event with a controller-switch callback registered makes exactly one
    request, START_REPLAY with the empty string as trajectory id, asked in
    the world the event's two log lines leave; the handler is replaying
    afterwards exactly when the callback answered true, and its trajectory
    id is still empty. *)
Theorem first_teach_repeat_replays_the_empty_id (cs : list (Call World))
  (w0 : World) (interface : string)
  (f : ControllerCommand -> string -> World -> bool * World) :
  let before := calls system_clock cs default_handler w0 in
  clock_reads (trace before) = [] ->
  is_replaying_ (handler before) = false ->
  controller_callback_ (handler before) = Some f ->
  let asked := start_replay_world (handler before) interface (world before) in
  let answer := fst (f START_REPLAY "" asked) in
  let r :=
    on_button_event system_clock interface TEACH_REPEAT
      (handler before) (world before) in
  controller_calls (trace r) = [ControllerSwitchCall START_REPLAY "" answer] /\
  is_replaying_ (handler r) = answer /\
  is_teaching_ (handler r) = false /\
  current_trajectory_name_ (handler r) = "".
Proof.
  simpl. intros Hnone Hr Hcc.
  pose proof (calls_invariant nothing_generated call_keeps_nothing_generated
                cs default_handler w0 []) as Hfresh.
  simpl in Hfresh.
  destruct (calls system_clock cs default_handler w0) as [[] h w tr].
  simpl in *.
  destruct Hfresh as [Ht Hn];
    [intros _; split; reflexivity|exact Hnone|].
  destruct h as [cc rc lc t r n li]. simpl in *. subst t r n cc.
  destruct lc; unfold_members; simpl; on_answer; repeat split; reflexivity.
Qed.

End Properties.

(** ** Further properties of the member functions *)

(** The switch of [on_button_event], keeping what each test found. *)
Ltac switch_with_equations status :=
  unfold on_button_event;
  destruct (Z.eqb_spec status ENTRY_TEACH);
  [|destruct (Z.eqb_spec status EXIT_TEACH);
    [|destruct (Z.eqb_spec status TEACH_REPEAT)]].

Section Further.

Variable World : Type.
Variable system_clock : World -> time_t.

(** X1: an EXIT_TEACH event on a handler that is not teaching is ignored:
    only [last_interface_] changes, and nothing but the log is called (no
    STOP_RECORD request, no clock reading). *)
Theorem exit_teach_while_not_teaching_is_ignored
  (h : ButtonEventHandler World) (w : World) (interface : string) :
  is_teaching_ h = false ->
  let r := on_button_event system_clock interface EXIT_TEACH h w in
  handler r = assign_last_interface interface h /\
  beyond_logging (trace r) = [].
Proof.
  destruct h as [cc rc lc t r n li]. simpl. intro Ht. subst t.
  destruct cc, lc, r; unfold_members; simpl; split; reflexivity.
Qed.

(** X2: while teaching, EXIT_TEACH is the only status that does anything:
    every other event (ENTRY_TEACH again, TEACH_REPEAT, NONE, an unknown
    byte) only sets [last_interface_]; the trajectory id being recorded is
    not regenerated and nothing but the log is called. *)
Theorem teaching_yields_only_to_exit_teach
  (h : ButtonEventHandler World) (w : World) (interface : string)
  (status : ButtonStatus) :
  is_teaching_ h = true ->
  status <> EXIT_TEACH ->
  let r := on_button_event system_clock interface status h w in
  handler r = assign_last_interface interface h /\
  beyond_logging (trace r) = [].
Proof.
  destruct h as [cc rc lc t r n li]. simpl. intros Ht Hstatus. subst t.
  switch_with_equations status; try contradiction;
    destruct cc, lc, r; unfold_members; simpl; split; reflexivity.
Qed.

(** X3: while replaying (and not teaching), no button event does anything,
    whatever its status: only [last_interface_] changes and nothing but the
    log is called.  Replay ends through [notify_replay_complete] alone. *)
Theorem replaying_yields_to_no_button_event
  (h : ButtonEventHandler World) (w : World) (interface : string)
  (status : ButtonStatus) :
  is_replaying_ h = true ->
  is_teaching_ h = false ->
  let r := on_button_event system_clock interface status h w in
  handler r = assign_last_interface interface h /\
  beyond_logging (trace r) = [].
Proof.
  destruct h as [cc rc lc t r n li]. simpl. intros Hr Ht. subst t r.
  switch_on status;
    destruct cc, lc; unfold_members; simpl; split; reflexivity.
Qed.

(** X4: a status that is none of ENTRY_TEACH, EXIT_TEACH and TEACH_REPEAT
    (NONE, or a byte outside the enumeration) only sets [last_interface_],
    in every state of the handler, and calls nothing but the log. *)
Theorem other_statuses_only_record_the_interface
  (h : ButtonEventHandler World) (w : World) (interface : string)
  (status : ButtonStatus) :
  status <> ENTRY_TEACH ->
  status <> EXIT_TEACH ->
  status <> TEACH_REPEAT ->
  let r := on_button_event system_clock interface status h w in
  handler r = assign_last_interface interface h /\
  beyond_logging (trace r) = [].
Proof.
  destruct h as [cc rc lc t r n li]. simpl. intros H1 H2 H3.
  switch_with_equations status; try contradiction.
  destruct lc; unfold_members; simpl; split; reflexivity.
Qed.

(** X5: with no controller-switch callback registered, no button event
    changes [is_teaching_] or [is_replaying_], and neither the controller
    nor the replay-complete callback is called. *)
Theorem no_controller_no_mode_change
  (h : ButtonEventHandler World) (w : World) (interface : string)
  (status : ButtonStatus) :
  controller_callback_ h = None ->
  let r := on_button_event system_clock interface status h w in
  is_teaching_ (handler r) = is_teaching_ h /\
  is_replaying_ (handler r) = is_replaying_ h /\
  controller_calls (trace r) = [] /\
  replay_complete_calls (trace r) = [].
Proof.
  destruct h as [cc rc lc t r n li]. simpl. intro Hcc. subst cc.
  switch_on status;
    destruct lc, t, r; unfold_members; simpl; repeat split; reflexivity.
Qed.

(** X6: [on_button_event] reads the clock, once, exactly when the status is
    ENTRY_TEACH and the handler is idle, and then the handler holds the id
    built from that reading, whether the controller accepts, refuses or is
    not registered at all.  In every other case the clock is not read and
    the trajectory id is kept. *)
Theorem trajectory_id_follows_the_clock
  (h : ButtonEventHandler World) (w : World) (interface : string)
  (status : ButtonStatus) :
  let r := on_button_event system_clock interface status h w in
  if Z.eqb status ENTRY_TEACH
     && negb (is_teaching_ h) && negb (is_replaying_ h)
  then
    exists now,
      clock_reads (trace r) = [ClockRead now] /\
      current_trajectory_name_ (handler r) = trajectory_name_at now
  else
    clock_reads (trace r) = [] /\
    current_trajectory_name_ (handler r) = current_trajectory_name_ h.
Proof.
  destruct h as [cc rc lc t r n li]. simpl.
  switch_on status; simpl;
    destruct cc, lc, t, r; unfold_members; simpl; try on_answer;
    try (split; reflexivity); eexists; split; reflexivity.
Qed.

(** X7: [on_button_event] changes [is_teaching_] or [is_replaying_] only
    when the controller has accepted the one request the event made. *)
Theorem mode_changes_only_on_acceptance
  (h : ButtonEventHandler World) (w : World) (interface : string)
  (status : ButtonStatus) :
  let r := on_button_event system_clock interface status h w in
  (is_teaching_ (handler r), is_replaying_ (handler r))
  <> (is_teaching_ h, is_replaying_ h) ->
  exists name,
    controller_calls (trace r) =
      [ControllerSwitchCall
         (if is_teaching_ h then STOP_RECORD
          else if is_teaching_ (handler r) then START_RECORD
          else START_REPLAY)
         name true].
Proof.
  destruct h as [cc rc lc t r n li]. simpl.
  switch_on status;
    destruct cc, lc, t, r; unfold_members; simpl; try on_answer;
    intro Hmode; try (exfalso; apply Hmode; reflexivity);
    eexists; reflexivity.
Qed.

(** X8: a button event makes at most one request to the controller; the
    request is the command of the event's status, it carries the trajectory
    id the handler holds when the event returns, and the replay-complete
    callback is never called from [on_button_event]. *)
Theorem button_event_makes_one_matching_request
  (h : ButtonEventHandler World) (w : World) (interface : string)
  (status : ButtonStatus) :
  let r := on_button_event system_clock interface status h w in
  replay_complete_calls (trace r) = [] /\
  forall command name answer,
    In (ControllerSwitchCall command name answer) (trace r) ->
    controller_calls (trace r) = [ControllerSwitchCall command name answer] /\
    status = status_requesting command /\
    name = current_trajectory_name_ (handler r).
Proof.
  destruct h as [cc rc lc t r n li]. simpl.
  switch_with_equations status; subst;
    destruct cc, lc, t, r; unfold_members; simpl; try on_answer;
    (split; [reflexivity|]); intros command name answer Hin;
    repeat (destruct Hin as [Hin|Hin]; try discriminate Hin);
    try contradiction;
    injection Hin as <- <- <-; repeat split; reflexivity.
Qed.

(** X9: in every state, [notify_replay_complete] leaves the handler as it
    was but for [is_replaying_], which is false afterwards; it never calls
    the controller, never reads the clock, and calls the replay-complete
    callback with no interface other than the one it was given. *)
Theorem notify_replay_complete_only_clears_replaying
  (h : ButtonEventHandler World) (w : World) (interface : string) :
  let r := notify_replay_complete interface h w in
  handler r = assign_is_replaying false h /\
  controller_calls (trace r) = [] /\
  clock_reads (trace r) = [] /\
  (replay_complete_calls (trace r) = [] \/
   replay_complete_calls (trace r) = [ReplayCompleteCall interface]).
Proof.
  destruct h as [cc rc lc t r n li]. simpl.
  destruct rc, lc, r; unfold_members; simpl; repeat split;
    try reflexivity; (left; reflexivity) || (right; reflexivity).
Qed.

Lemma call_tags_its_log_lines (c : Call World) (h : ButtonEventHandler World)
  (w : World) :
  forallb is_tagged (trace (call system_clock c h w)) = true.
Proof.
  destruct h as [cc rc lc t r n li].
  destruct c as [cb|cb|cb|interface status|interface|f]; try reflexivity.
  - unfold call. switch_on status;
      destruct cc, lc, t, r; unfold_members; simpl; try on_answer;
      reflexivity.
  - destruct rc, lc, r; reflexivity.
Qed.

(** X10: every message that reaches the log callback, in every sequence of
    calls and from every state, starts with the tag that [log] prepends:
    the handler's name in brackets and a space. *)
Theorem every_log_line_is_tagged (cs : list (Call World))
  (h : ButtonEventHandler World) (w : World) :
  forallb is_tagged (trace (calls system_clock cs h w)) = true.
Proof.
  revert h w. induction cs as [|c rest IH]; intros h w.
  - reflexivity.
  - rewrite calls_cons. simpl. rewrite forallb_app.
    rewrite call_tags_its_log_lines, IH. reflexivity.
Qed.

(** X11: logging carries no weight.  With a log callback that leaves the
    world alone, a button event or a replay-complete notification ends in
    the same handler, the same world and the same interactions beyond the
    log as with no log callback at all. *)
Theorem logging_changes_nothing_else
  (h : ButtonEventHandler World) (w : World) (interface : string)
  (status : ButtonStatus) (f : string -> World -> World) :
  (forall message w', f message w' = w') ->
  let quiet := assign_log_callback None h in
  let logged := assign_log_callback (Some f) h in
  let e := on_button_event system_clock interface status quiet w in
  let e' := on_button_event system_clock interface status logged w in
  let n := notify_replay_complete interface quiet w in
  let n' := notify_replay_complete interface logged w in
  (handler e' = assign_log_callback (Some f) (handler e) /\
   world e' = world e /\
   beyond_logging (trace e') = trace e) /\
  (handler n' = assign_log_callback (Some f) (handler n) /\
   world n' = world n /\
   beyond_logging (trace n') = trace n).
Proof.
  destruct h as [cc rc lc t r n li]. simpl. intro Hf. split.
  - switch_on status;
      destruct cc, t, r; unfold_members; simpl; rewrite ?Hf;
      try on_answer; rewrite ?Hf; repeat split; reflexivity.
  - destruct rc, r; unfold_members; simpl; rewrite ?Hf;
      repeat split; reflexivity.
Qed.

Lemma to_string_injective (a b : Z) : to_string a = to_string b -> a = b.
Proof.
  unfold to_string. intro H.
  assert (Hparse : forall z,
             NilZero.int_of_string (NilZero.string_of_int (Z.to_int z))
             = Some (Z.to_int z)).
  { intro z. apply NilZero.isi; destruct z; simpl; try discriminate;
      intro E; injection E as E;
      exact (DecimalPos.Unsigned.to_uint_nonnil _ E). }
  apply DecimalZ.to_int_inj.
  pose proof (Hparse a) as Ha. rewrite H, Hparse in Ha.
  injection Ha as Ha. symmetry. exact Ha.
Qed.

(** X12: trajectory ids generated at different readings of the clock are
    different: the id determines the timestamp it was built from. *)
Theorem trajectory_ids_tell_timestamps_apart (a b : time_t) :
  a <> b -> trajectory_name_at a <> trajectory_name_at b.
Proof.
  intros Hab Hname. apply Hab. apply to_string_injective.
  unfold trajectory_name_at in Hname. simpl in Hname.
  injection Hname as Hname. exact Hname.
Qed.

(** X13: with a controller that accepts every request, teaching, ending the
    teaching and asking for replay, from an idle handler and with anything
    happening in the world in between, makes three requests that carry one
    and the same trajectory id: what was recorded is what is replayed.  The
    handler ends replaying, holding that id. *)
Theorem teach_stop_replay_share_one_id
  (h : ButtonEventHandler World) (w : World)
  (f : ControllerCommand -> string -> World -> bool * World)
  (i1 i2 i3 : string) (g1 g2 : World -> World) :
  controller_callback_ h = Some f ->
  (forall command name w', fst (f command name w') = true) ->
  is_teaching_ h = false ->
  is_replaying_ h = false ->
  let r :=
    calls system_clock
      [On_button_event i1 ENTRY_TEACH; Elsewhere g1;
       On_button_event i2 EXIT_TEACH; Elsewhere g2;
       On_button_event i3 TEACH_REPEAT] h w in
  exists name,
    controller_calls (trace r) =
      [ControllerSwitchCall START_RECORD name true;
       ControllerSwitchCall STOP_RECORD name true;
       ControllerSwitchCall START_REPLAY name true] /\
    session_state (handler r) = (false, true, name) /\
    last_interface_ (handler r) = i3.
Proof.
  destruct h as [cc rc lc t r n li]. simpl. intros Hcc Hf Ht Hr.
  subst cc t r.
  destruct lc; unfold calls; unfold_members; simpl;
    repeat (rewrite Hf; simpl);
    eexists; repeat split; reflexivity.
Qed.

Lemma call_keeps_generated_id (c : Call World) (h : ButtonEventHandler World)
  (w : World) (tr : list Interaction) :
  current_trajectory_name_ h = last_generated_id tr ->
  current_trajectory_name_ (handler (call system_clock c h w))
  = last_generated_id (tr ++ trace (call system_clock c h w)).
Proof.
  unfold last_generated_id. rewrite fold_left_app.
  destruct h as [cc rc lc t r n li]. simpl. intros <-.
  destruct c as [cb|cb|cb|interface status|interface|f]; try reflexivity.
  - unfold call. switch_on status;
      destruct cc, lc, t, r; unfold_members; simpl; try on_answer;
      reflexivity.
  - destruct rc, lc, r; reflexivity.
Qed.

(** X14: at every point of every run from construction, the trajectory id
    the handler holds is the one built from its latest reading of the
    clock, and the empty string as long as it has not read the clock. *)
Theorem held_id_is_the_last_generated (cs : list (Call World)) (w : World) :
  let r := calls system_clock cs default_handler w in
  current_trajectory_name_ (handler r) = last_generated_id (trace r).
Proof.
  simpl.
  apply (calls_invariant World system_clock
           (fun h tr => current_trajectory_name_ h = last_generated_id tr)
           call_keeps_generated_id cs default_handler w []).
  reflexivity.
Qed.

Lemma call_keeps_replay_id (c : Call World) (h : ButtonEventHandler World)
  (w : World) (tr : list Interaction) :
  (is_replaying_ h = true ->
   replay_entry_id tr = Some (current_trajectory_name_ h)) ->
  is_replaying_ (handler (call system_clock c h w)) = true ->
  replay_entry_id (tr ++ trace (call system_clock c h w))
  = Some (current_trajectory_name_ (handler (call system_clock c h w))).
Proof.
  unfold replay_entry_id. rewrite fold_left_app.
  destruct h as [cc rc lc t r n li]. simpl. intro H.
  destruct c as [cb|cb|cb|interface status|interface|f]; try exact H.
  - unfold call. switch_on status;
      destruct cc, lc, t, r; unfold_members; simpl; try on_answer;
      try exact H; try discriminate; reflexivity.
  - destruct rc, lc, r; unfold_members; simpl; discriminate.
Qed.

(** X15: on a handler that any sequence of calls has brought to replaying,
    the trajectory id it holds is the id of the START_REPLAY request the
    controller accepted last: while a replay runs, the handler names the
    trajectory being replayed. *)
Theorem replaying_handler_names_the_replayed_id (cs : list (Call World))
  (w : World) :
  let r := calls system_clock cs default_handler w in
  is_replaying_ (handler r) = true ->
  replay_entry_id (trace r) = Some (current_trajectory_name_ (handler r)).
Proof.
  simpl.
  apply (calls_invariant World system_clock
           (fun h tr =>
              is_replaying_ h = true ->
              replay_entry_id tr = Some (current_trajectory_name_ h))
           call_keeps_replay_id cs default_handler w []).
  intro Hdefault. discriminate Hdefault.
Qed.

End Further.

(** ** Concrete runs *)

Example trajectory_name_at_a_timestamp :
  trajectory_name_at 1700000000 = "button_traj_1700000000".
Proof. reflexivity. Qed.

(** A status byte outside the enumeration reaches the [default] branch: the
    interface is recorded and nothing else happens. *)
Example unknown_status_is_only_recorded :
  let before := after start_replay 7 in
  let r := on_button_event wall_clock "can1" 200 (handler before) 8 in
  handler r = assign_last_interface "can1" (handler before) /\
  trace r = [].
Proof. split; reflexivity. Qed.

(** Teaching, then replay of what was taught, then the completion signal. *)
Example teach_then_replay :
  let r :=
    after (Set_replay_complete_callback (Some send_replay_complete)
             :: enter_teaching
             ++ [On_button_event "can0" EXIT_TEACH;
                 On_button_event "can0" TEACH_REPEAT;
                 Notify_replay_complete "can0"]) 7 in
  session_state (handler r) = (false, false, "button_traj_7") /\
  trace r =
    [ClockRead 7;
     ControllerSwitchCall START_RECORD "button_traj_7" true;
     ControllerSwitchCall STOP_RECORD "button_traj_7" true;
     ControllerSwitchCall START_REPLAY "button_traj_7" true;
     ReplayCompleteCall "can0"].
Proof. split; reflexivity. Qed.

(** C2, as first stated, fails: after one recording (id button_traj_7) the
    controller refuses the next START_RECORD; both flags stay false, but
    the handler now holds button_traj_9, an id nothing was recorded under. *)
Lemma refused_start_record_replaces_the_trajectory_id :
  let before := after recorded_then_refusing 7 in
  let r :=
    on_button_event wall_clock "can0" ENTRY_TEACH
      (handler before) (world before) in
  In (ControllerSwitchCall START_RECORD "button_traj_9" false) (trace r) /\
  session_state (handler before) = (false, false, "button_traj_7") /\
  session_state (handler r) = (false, false, "button_traj_9") /\
  current_trajectory_name_ (handler r)
  <> current_trajectory_name_ (handler before).
Proof.
  vm_compute. repeat split; try discriminate. right. left. reflexivity.
Qed.

Lemma refused_request_keeps_the_mode_witness :
  let h := mkButtonEventHandler (Some refuse) None None
             true false "button_traj_7" "can0" in
  let r := on_button_event wall_clock "can1" EXIT_TEACH h 9 in
  In (ControllerSwitchCall STOP_RECORD "button_traj_7" false) (trace r) /\
  is_teaching_ (handler r) = true /\
  is_replaying_ (handler r) = false /\
  current_trajectory_name_ (handler r) = "button_traj_7".
Proof.
  assert (Hin : In (ControllerSwitchCall STOP_RECORD "button_traj_7" false)
                  (trace (on_button_event wall_clock "can1" EXIT_TEACH
                            (mkButtonEventHandler (Some refuse) None None
                               true false "button_traj_7" "can0") 9))).
  { vm_compute. left. reflexivity. }
  split; [exact Hin|].
  exact (refused_request_keeps_the_mode Z wall_clock _ 9 "can1" EXIT_TEACH
           STOP_RECORD "button_traj_7" Hin).
Defined.

(** C3, as first stated, fails: a handler that entered replay without a
    replay-complete callback clears its flag on the notification and sends
    no completion signal. *)
Lemma replay_complete_without_callback_sends_nothing :
  let before := after start_replay 7 in
  let r := notify_replay_complete "can0" (handler before) (world before) in
  is_replaying_ (handler before) = true /\
  is_replaying_ (handler r) = false /\
  replay_complete_calls (trace r) = [] /\
  replay_complete_calls (trace r) <> [ReplayCompleteCall "can0"].
Proof.
  vm_compute. repeat split; discriminate.
Qed.

Lemma replay_complete_clears_the_flag_once_witness :
  let before := after start_replay_with_signal 7 in
  let r := notify_replay_complete "can0" (handler before) (world before) in
  is_replaying_ (handler before) = true /\
  handler r = assign_is_replaying false (handler before) /\
  replay_complete_calls (trace r) = [ReplayCompleteCall "can0"] /\
  controller_calls (trace r) = [] /\
  notify_replay_complete "can0" (handler r) (world r) =
    mkOutcome tt (handler r) (world r) [].
Proof.
  split; [reflexivity|].
  exact (replay_complete_clears_the_flag_once Z
           (handler (after start_replay_with_signal 7))
           (world (after start_replay_with_signal 7)) "can0" eq_refl).
Defined.

Lemma entry_teach_while_replaying_witness :
  let h := handler (after start_replay 7) in
  let r := on_button_event wall_clock "can1" ENTRY_TEACH h 9 in
  is_replaying_ h = true /\
  session_state (handler r) = session_state h /\
  handler r = assign_last_interface "can1" h /\
  controller_calls (trace r) = [].
Proof.
  split; [reflexivity|].
  exact (entry_teach_while_replaying_changes_nothing Z wall_clock
           (handler (after start_replay 7)) 9 "can1" eq_refl).
Defined.

Lemma teach_repeat_while_teaching_witness :
  let h := handler (after enter_teaching 7) in
  let r := on_button_event wall_clock "can1" TEACH_REPEAT h 9 in
  is_teaching_ h = true /\
  session_state (handler r) = session_state h /\
  handler r = assign_last_interface "can1" h /\
  controller_calls (trace r) = [].
Proof.
  split; [reflexivity|].
  exact (teach_repeat_while_teaching_changes_nothing Z wall_clock
           (handler (after enter_teaching 7)) 9 "can1" eq_refl).
Defined.

Lemma spurious_replay_complete_witness :
  let h := handler (after enter_teaching 7) in
  is_replaying_ h = false /\
  notify_replay_complete "can0" h 9 = mkOutcome tt h 9 [] /\
  calls wall_clock (map Notify_replay_complete ["can0"; "can1"; "can0"]) h 9
  = mkOutcome tt h 9 [].
Proof.
  split; [reflexivity|].
  exact (spurious_replay_complete_is_a_no_op Z wall_clock
           (handler (after enter_teaching 7)) 9 "can0"
           ["can0"; "can1"; "can0"] eq_refl).
Defined.


Lemma exit_teach_witness :
  let before := calls wall_clock enter_teaching_logged default_handler 7 in
  let r :=
    on_button_event wall_clock "can0" EXIT_TEACH
      (handler before) (world before) in
  is_teaching_ (handler before) = true /\
  controller_callback_ (handler before) = Some accept /\
  fst (accept STOP_RECORD "button_traj_7" 7) = true /\
  teaching_entry_id (trace before) = Some "button_traj_7" /\
  controller_calls (trace r) =
    [ControllerSwitchCall STOP_RECORD "button_traj_7" true] /\
  is_teaching_ (handler r) = false.
Proof.
  split; [reflexivity|]. split; [reflexivity|]. split; [reflexivity|].
  exact (exit_teach_stops_the_recording_it_started Z wall_clock
           enter_teaching_logged 7 "can0" accept eq_refl eq_refl eq_refl).
Defined.

(** C9, as first stated, fails: a handler whose only START_RECORD was
    refused has never entered teaching, yet it holds the id generated for
    that request, and TEACH_REPEAT asks the controller to replay it. *)
Lemma teach_repeat_after_refused_start_record :
  let before := after refused_once 7 in
  let r :=
    on_button_event wall_clock "can0" TEACH_REPEAT
      (handler before) (world before) in
  teaching_entry_id (trace before) = None /\
  session_state (handler before) = (false, false, "button_traj_7") /\
  controller_calls (trace r) =
    [ControllerSwitchCall START_REPLAY "button_traj_7" true] /\
  controller_calls (trace r) <> [ControllerSwitchCall START_REPLAY "" true] /\
  session_state (handler r) = (false, true, "button_traj_7").
Proof.
  vm_compute. repeat split; discriminate.
Qed.

Lemma first_teach_repeat_witness :
  let before := calls wall_clock with_controller_and_log default_handler 7 in
  let r :=
    on_button_event wall_clock "can0" TEACH_REPEAT
      (handler before) (world before) in
  clock_reads (trace before) = [] /\
  is_replaying_ (handler before) = false /\
  controller_callback_ (handler before) = Some accept /\
  controller_calls (trace r) = [ControllerSwitchCall START_REPLAY "" true] /\
  is_replaying_ (handler r) = true /\
  is_teaching_ (handler r) = false /\
  current_trajectory_name_ (handler r) = "".
Proof.
  split; [reflexivity|]. split; [reflexivity|]. split; [reflexivity|].
  exact (first_teach_repeat_replays_the_empty_id Z wall_clock
           with_controller_and_log 7 "can0" accept eq_refl eq_refl eq_refl).
Defined.

(** ** Concrete runs of the further properties *)

Lemma exit_teach_while_not_teaching_witness :
  let h := handler (after start_replay 7) in
  let r := on_button_event wall_clock "can1" EXIT_TEACH h 9 in
  is_teaching_ h = false /\
  handler r = assign_last_interface "can1" h /\
  beyond_logging (trace r) = [].
Proof.
  split; [reflexivity|].
  exact (exit_teach_while_not_teaching_is_ignored Z wall_clock
           (handler (after start_replay 7)) 9 "can1" eq_refl).
Defined.

Lemma teaching_yields_only_to_exit_teach_witness :
  let h := handler (after enter_teaching 7) in
  let r := on_button_event wall_clock "can1" ENTRY_TEACH h 9 in
  is_teaching_ h = true /\
  ENTRY_TEACH <> EXIT_TEACH /\
  handler r = assign_last_interface "can1" h /\
  beyond_logging (trace r) = [].
Proof.
  assert (Hstatus : ENTRY_TEACH <> EXIT_TEACH) by discriminate.
  split; [reflexivity|]. split; [exact Hstatus|].
  exact (teaching_yields_only_to_exit_teach Z wall_clock
           (handler (after enter_teaching 7)) 9 "can1" ENTRY_TEACH
           eq_refl Hstatus).
Defined.

Lemma replaying_yields_to_no_button_event_witness :
  let h := handler (after start_replay 7) in
  let r := on_button_event wall_clock "can1" TEACH_REPEAT h 9 in
  is_replaying_ h = true /\
  is_teaching_ h = false /\
  handler r = assign_last_interface "can1" h /\
  beyond_logging (trace r) = [].
Proof.
  split; [reflexivity|]. split; [reflexivity|].
  exact (replaying_yields_to_no_button_event Z wall_clock
           (handler (after start_replay 7)) 9 "can1" TEACH_REPEAT
           eq_refl eq_refl).
Defined.

Lemma other_statuses_witness :
  let h := handler (after with_controller 7) in
  let r := on_button_event wall_clock "can1" NONE h 9 in
  NONE <> ENTRY_TEACH /\ NONE <> EXIT_TEACH /\ NONE <> TEACH_REPEAT /\
  handler r = assign_last_interface "can1" h /\
  beyond_logging (trace r) = [].
Proof.
  assert (H1 : NONE <> ENTRY_TEACH) by discriminate.
  assert (H2 : NONE <> EXIT_TEACH) by discriminate.
  assert (H3 : NONE <> TEACH_REPEAT) by discriminate.
  split; [exact H1|]. split; [exact H2|]. split; [exact H3|].
  exact (other_statuses_only_record_the_interface Z wall_clock
           (handler (after with_controller 7)) 9 "can1" NONE H1 H2 H3).
Defined.

Lemma no_controller_no_mode_change_witness :
  let h := @default_handler Z in
  let r := on_button_event wall_clock "can0" ENTRY_TEACH h 7 in
  controller_callback_ h = None /\
  is_teaching_ (handler r) = is_teaching_ h /\
  is_replaying_ (handler r) = is_replaying_ h /\
  controller_calls (trace r) = [] /\
  replay_complete_calls (trace r) = [].
Proof.
  split; [reflexivity|].
  exact (no_controller_no_mode_change Z wall_clock default_handler 7
           "can0" ENTRY_TEACH eq_refl).
Defined.

Lemma mode_changes_only_on_acceptance_witness :
  let h := handler (after with_controller 7) in
  let r := on_button_event wall_clock "can0" ENTRY_TEACH h 7 in
  (is_teaching_ (handler r), is_replaying_ (handler r))
  <> (is_teaching_ h, is_replaying_ h) /\
  exists name,
    controller_calls (trace r) =
      [ControllerSwitchCall
         (if is_teaching_ h then STOP_RECORD
          else if is_teaching_ (handler r) then START_RECORD
          else START_REPLAY)
         name true].
Proof.
  assert (Hmode :
            (is_teaching_
               (handler (on_button_event wall_clock "can0" ENTRY_TEACH
                           (handler (after with_controller 7)) 7)),
             is_replaying_
               (handler (on_button_event wall_clock "can0" ENTRY_TEACH
                           (handler (after with_controller 7)) 7)))
            <> (is_teaching_ (handler (after with_controller 7)),
                is_replaying_ (handler (after with_controller 7)))).
  { vm_compute. discriminate. }
  split; [exact Hmode|].
  exact (mode_changes_only_on_acceptance Z wall_clock
           (handler (after with_controller 7)) 7 "can0" ENTRY_TEACH Hmode).
Defined.

Lemma logging_changes_nothing_else_witness :
  let h := handler (after with_controller 7) in
  let quiet := assign_log_callback None h in
  let logged := assign_log_callback (Some write_log) h in
  let e := on_button_event wall_clock "can0" ENTRY_TEACH quiet 7 in
  let e' := on_button_event wall_clock "can0" ENTRY_TEACH logged 7 in
  let n := notify_replay_complete "can0" quiet 7 in
  let n' := notify_replay_complete "can0" logged 7 in
  (forall message w', write_log message w' = w') /\
  (handler e' = assign_log_callback (Some write_log) (handler e) /\
   world e' = world e /\
   beyond_logging (trace e') = trace e) /\
  (handler n' = assign_log_callback (Some write_log) (handler n) /\
   world n' = world n /\
   beyond_logging (trace n') = trace n).
Proof.
  assert (Hf : forall (message : string) (w' : Z), write_log message w' = w')
    by (intros; reflexivity).
  split; [exact Hf|].
  exact (logging_changes_nothing_else Z wall_clock
           (handler (after with_controller 7)) 7 "can0" ENTRY_TEACH
           write_log Hf).
Defined.

Lemma trajectory_ids_witness :
  7 <> 9 /\ trajectory_name_at 7 <> trajectory_name_at 9.
Proof.
  assert (H : 7 <> 9) by discriminate.
  split; [exact H|].
  exact (trajectory_ids_tell_timestamps_apart 7 9 H).
Defined.

Lemma teach_stop_replay_witness :
  let h := handler (after with_controller 7) in
  let r :=
    calls wall_clock
      [On_button_event "can0" ENTRY_TEACH; Elsewhere (Z.add 5);
       On_button_event "can0" EXIT_TEACH; Elsewhere (Z.add 1);
       On_button_event "can1" TEACH_REPEAT] h 7 in
  controller_callback_ h = Some accept /\
  (forall command name w', fst (accept command name w') = true) /\
  is_teaching_ h = false /\
  is_replaying_ h = false /\
  exists name,
    controller_calls (trace r) =
      [ControllerSwitchCall START_RECORD name true;
       ControllerSwitchCall STOP_RECORD name true;
       ControllerSwitchCall START_REPLAY name true] /\
    session_state (handler r) = (false, true, name) /\
    last_interface_ (handler r) = "can1".
Proof.
  assert (Hf : forall (command : ControllerCommand) (name : string) (w' : Z),
             fst (accept command name w') = true)
    by (intros; reflexivity).
  split; [reflexivity|]. split; [exact Hf|].
  split; [reflexivity|]. split; [reflexivity|].
  exact (teach_stop_replay_share_one_id Z wall_clock
           (handler (after with_controller 7)) 7 accept
           "can0" "can0" "can1" (Z.add 5) (Z.add 1)
           eq_refl Hf eq_refl eq_refl).
Defined.

Lemma replaying_handler_witness :
  let r := calls wall_clock start_replay default_handler 7 in
  is_replaying_ (handler r) = true /\
  replay_entry_id (trace r) = Some (current_trajectory_name_ (handler r)).
Proof.
  split; [reflexivity|].
  exact (replaying_handler_names_the_replayed_id Z wall_clock
           start_replay 7 eq_refl).
Defined.
